(** * heavymath_lib: favourite-annotated sports hooks

  Every hook under [src/hooks/sports] is one template: run the sport's
  entity query, run [useFavorites] for a fixed (category, subcategory,
  type) filter, collect the favourited item ids into a [Set], annotate
  each entity with [favorited], and hand out an asynchronous
  [setFavorited] that issues one add or one remove mutation.

  The template is embedded once, over a [HookDef] that holds what
  differs from file to file (the three constants, the entity type and
  where its id lives); every hook of the repository is an instance. *)

From Stdlib Require Import ZArith String List Bool.
From stdpp Require Import base strings gmap list pretty.

Open Scope string_scope.
Open Scope list_scope.

(** ** JavaScript values *)

(** Ids and favourite handles are JavaScript numbers that hold integers. *)
Definition number := Z.
Bind Scope Z_scope with number.

(** [String(n)]: decimal rendering, with a leading [-] for negatives
  (what JavaScript prints for every integer of magnitude below 1e21). *)
Definition String_ (n : number) : string := pretty n.

(** [Error] objects are carried around, never inspected. *)
Definition Error := string.

(** ** Promises and the async monad *)

(** How a promise settles. *)
Inductive Settled (A : Type) : Type :=
  | Fulfilled (value : A)
  | Rejected (reason : Error).
Arguments Fulfilled {A} value.
Arguments Rejected {A} reason.

(** The payload of [addFavorite.mutateAsync]. *)
Module AddFavoriteRequest.
Record t := mk { category : string; subcategory : string; type : string; id : string }.
End AddFavoriteRequest.

(** A favourite as the indexer returns it. *)
Module WalletFavoriteData.
Record t := mk {
  id : number;
  itemId : string;
  category : string;
  subcategory : string;
  type : string
}.
End WalletFavoriteData.

(** One entry per [mutateAsync] invocation, in the order they were made. *)
Inductive MutationCall : Type :=
  | AddFavoriteCall (variables : AddFavoriteRequest.t)
  | RemoveFavoriteCall (favoriteId : number).

(** An async function body: it extends the journal of mutation calls
  and settles.  [await] of a rejected promise throws, so [bind] stops at
  the first rejection. *)
Definition Async (A : Type) : Type :=
  list MutationCall -> list MutationCall * Settled A.

#[export] Instance Async_ret : MRet Async :=
  fun A (a : A) journal => (journal, Fulfilled a).

#[export] Instance Async_bind : MBind Async :=
  fun A B (k : A -> Async B) (m : Async A) journal =>
  match m journal with
  | (journal', Fulfilled a) => k a journal'
  | (journal', Rejected e) => (journal', Rejected e)
  end.

(** The calls an async body makes, and how it settles, when started on an
    empty journal. *)
Definition calls_of {A} (m : Async A) : list MutationCall := fst (m []).

Definition outcome_of {A} (m : Async A) : Settled A := snd (m []).

(** A react-query mutation object: how [mutateAsync] settles for given
  variables (decided by the indexer) and the [isPending] flag. *)
Module Mutation.
Record t (V : Type) := mk { settle : V -> Settled unit; isPending : bool }.
Arguments mk {V} settle isPending.
Arguments settle {V} t _.
Arguments isPending {V} t.
End Mutation.

(** [m.mutateAsync(variables)]: journals the call and settles as the
  mutation does.  [record] names which mutation [m] is. *)
Definition mutateAsync {V} (record : V -> MutationCall) (m : Mutation.t V)
  (variables : V) : Async unit :=
  fun journal => (journal ++ [record variables], Mutation.settle m variables).

(** ** What the two collaborating hooks return *)

(** [{ category, subcategory, type }], the third argument of [useFavorites]. *)
Module FavoritesFilter.
Record t := mk { category : string; subcategory : string; type : string }.
End FavoritesFilter.

#[export] Instance FavoritesFilter_eq_dec : EqDecision FavoritesFilter.t.
Proof. solve_decision. Defined.

(** The result of [useFavorites]. *)
Module Favorites.
Record t := mk {
  favorites : list WalletFavoriteData.t;
  isLoading : bool;
  isError : bool;
  error : option Error;
  addFavorite : Mutation.t AddFavoriteRequest.t;
  removeFavorite : Mutation.t number
}.
End Favorites.

(** The body of a sports API answer; only [response] is read. *)
Module ApiResponse.
Record t (E : Type) := mk { response : list E }.
Arguments mk {E} response.
Arguments response {E} t.
End ApiResponse.

(** The result of a sports API query hook. *)
Module Query.
Record t (E : Type) := mk {
  data : option (ApiResponse.t E);
  isLoading : bool;
  isError : bool;
  error : option Error
}.
Arguments mk {E} data isLoading isError error.
Arguments data {E} t.
Arguments isLoading {E} t.
Arguments isError {E} t.
Arguments error {E} t.
End Query.

(** [{ params?, enabled? }]. *)
Module Options.
Record t (P : Type) := mk { params : option P; enabled : option bool }.
Arguments mk {P} params enabled.
End Options.

(** [{ ...entity, favorited }]; for MMA categories [{ name, favorited }]. *)
Module WithFavorite.
Record t (E : Type) := mk { entity : E; favorited : bool }.
Arguments mk {E} entity favorited.
Arguments entity {E} t.
Arguments favorited {E} t.
End WithFavorite.

(** What every hook returns; [items] is [leagues], [teams], [games], ... *)
Module Result.
Record t (E I : Type) := mk {
  items : list (WithFavorite.t E);
  isLoading : bool;
  isError : bool;
  error : option Error;
  setFavorited : I -> bool -> Async unit;
  favoritesLoading : bool;
  addFavoritePending : bool;
  removeFavoritePending : bool
}.
Arguments mk {E I}.
Arguments items {E I} t.
Arguments isLoading {E I} t.
Arguments isError {E I} t.
Arguments error {E I} t.
Arguments setFavorited {E I} t _ _.
Arguments favoritesLoading {E I} t.
Arguments addFavoritePending {E I} t.
Arguments removeFavoritePending {E I} t.
End Result.

(** ** The template *)

(** What changes from one hook file to the next. *)
Record HookDef := {
  FAVORITES_CATEGORY : string;
  FAVORITES_SUBCATEGORY : string;
  FAVORITES_TYPE : string;
  Entity : Type;                      (* element type of [response] *)
  Params : Type;                      (* type of [options.params] *)
  IdArg : Type;                       (* first argument of [setFavorited] *)
  entityItemId : Entity -> string;    (* [String(league.id)], [categoryName], ... *)
  argItemId : IdArg -> string         (* [String(leagueId)], [categoryName] *)
}.

Section Template.
Context {IndexerClient : Type}.
Variable d : HookDef.

(** The filter literal passed to [useFavorites]. *)
Definition favoritesFilter : FavoritesFilter.t :=
  FavoritesFilter.mk (FAVORITES_CATEGORY d) (FAVORITES_SUBCATEGORY d) (FAVORITES_TYPE d).

(** [new Set(favorites.map(f => f.itemId))]. *)
Definition favoritedIds (favorites : list WalletFavoriteData.t) : gset string :=
  list_to_set (WalletFavoriteData.itemId <$> favorites).

(** [set.has(x)]. *)
Definition has (s : gset string) (x : string) : bool := bool_decide (x ∈ s).

(** [query.data?.response ?? []]. *)
Definition responseOrEmpty {E} (query : Query.t E) : list E :=
  match Query.data query with
  | Some body => ApiResponse.response body
  | None => []
  end.

(** [response.map(e => ({ ...e, favorited: favoritedIds.has(<item id of e>) }))]. *)
Definition annotate (query : Query.t (Entity d)) (ids : gset string)
    : list (WithFavorite.t (Entity d)) :=
  let response := responseOrEmpty query in
  (fun e => WithFavorite.mk e (has ids (entityItemId d e))) <$> response.

(** The async callback built by [useCallback]; [fav] is what
    [useFavorites] returned in the render that built it. *)
Definition setFavorited (fav : Favorites.t) (idArg : IdArg d) (favorited : bool)
    : Async unit :=
  let itemId := argItemId d idArg in
  if favorited then
    mutateAsync AddFavoriteCall (Favorites.addFavorite fav)
      (AddFavoriteRequest.mk (FAVORITES_CATEGORY d) (FAVORITES_SUBCATEGORY d)
         (FAVORITES_TYPE d) itemId) ;;
    mret tt
  else
    match find (fun f => bool_decide (WalletFavoriteData.itemId f = itemId))
               (Favorites.favorites fav) with
    | Some favorite =>
        mutateAsync RemoveFavoriteCall (Favorites.removeFavorite fav)
          (WalletFavoriteData.id favorite) ;;
        mret tt
    | None => mret tt
    end.

(** The hook.  [useApi] is the sport's query hook and [useFavorites] the
    indexer's, both as they answer during this render. *)
Definition useSportsHook
    (useApi : option (Options.t (Params d)) -> Query.t (Entity d))
    (useFavorites : IndexerClient -> option string -> FavoritesFilter.t -> Favorites.t)
    (indexerClient : IndexerClient) (walletAddress : option string)
    (options : option (Options.t (Params d)))
    : Result.t (Entity d) (IdArg d) :=
  let query := useApi options in
  let fav := useFavorites indexerClient walletAddress favoritesFilter in
  let ids := favoritedIds (Favorites.favorites fav) in
  Result.mk
    (annotate query ids)
    (Query.isLoading query || Favorites.isLoading fav)
    (Query.isError query)
    (Query.error query)
    (setFavorited fav)
    (Favorites.isLoading fav)
    (Mutation.isPending (Favorites.addFavorite fav))
    (Mutation.isPending (Favorites.removeFavorite fav)).

End Template.

Arguments useSportsHook {IndexerClient} d useApi useFavorites indexerClient walletAddress options.

(** ** The hooks of the repository *)

(** Entity shapes of the sports API client, as far as the hooks read them:
    the path to the numeric id.  All other fields ride along untouched. *)
Module Api.
Definition Fields := list (string * string).

(** [{ id, ... }]: leagues, teams, games, fighters and fights of most sports. *)
Record Identified := mkIdentified { id : number; fields : Fields }.

(** [{ league: { id, ... }, ... }]: football and NFL leagues. *)
Record LeagueResponse := mkLeagueResponse { league : Identified; league_fields : Fields }.

(** [{ team: { id, ... }, ... }]: football teams. *)
Record TeamResponse := mkTeamResponse { team : Identified; team_fields : Fields }.

(** [{ fixture: { id, ... }, ... }]: football fixtures. *)
Record FixtureResponse := mkFixtureResponse { fixture : Identified; fixture_fields : Fields }.

(** Query parameters of an API hook. *)
Definition Params := Fields.
End Api.

(** A hook file whose [setFavorited] takes a number and whose entities
    carry a numeric id at [idOf]: both are passed through [String]. *)
Definition numericHook (subcategory type : string) (E : Type) (idOf : E -> number)
    : HookDef :=
  {| FAVORITES_CATEGORY := "sports";
     FAVORITES_SUBCATEGORY := subcategory;
     FAVORITES_TYPE := type;
     Entity := E;
     Params := Api.Params;
     IdArg := number;
     entityItemId := fun e => String_ (idOf e);
     argItemId := String_ |}.

Definition BaseballGames := numericHook "baseball" "game" Api.Identified Api.id.
Definition BaseballTeams := numericHook "baseball" "team" Api.Identified Api.id.
Definition BasketballLeagues := numericHook "basketball" "league" Api.Identified Api.id.
Definition BasketballTeams := numericHook "basketball" "team" Api.Identified Api.id.
Definition HandballGames := numericHook "handball" "game" Api.Identified Api.id.
Definition HandballLeagues := numericHook "handball" "league" Api.Identified Api.id.
Definition MmaFighters := numericHook "mma" "fighter" Api.Identified Api.id.
Definition MmaFights := numericHook "mma" "fight" Api.Identified Api.id.
Definition NflGames := numericHook "nfl" "game" Api.Identified Api.id.
Definition NflTeams := numericHook "nfl" "team" Api.Identified Api.id.
Definition RugbyGames := numericHook "rugby" "game" Api.Identified Api.id.
Definition RugbyLeagues := numericHook "rugby" "league" Api.Identified Api.id.
Definition VolleyballGames := numericHook "volleyball" "game" Api.Identified Api.id.
Definition VolleyballLeagues := numericHook "volleyball" "league" Api.Identified Api.id.
Definition VolleyballTeams := numericHook "volleyball" "team" Api.Identified Api.id.

(** Nested ids: [league.league.id], [team.team.id], [fixture.fixture.id]. *)
Definition NflLeagues :=
  numericHook "nfl" "league" Api.LeagueResponse (fun r => Api.id (Api.league r)).
Definition FootballLeagues :=
  numericHook "football" "league" Api.LeagueResponse (fun r => Api.id (Api.league r)).
Definition FootballTeams :=
  numericHook "football" "team" Api.TeamResponse (fun r => Api.id (Api.team r)).
Definition FootballMatches :=
  numericHook "football" "match" Api.FixtureResponse (fun r => Api.id (Api.fixture r)).

(** MMA categories are plain strings: the category name is the item id,
    and [setFavorited] takes the name, with no [String] call. *)
Definition MmaCategories : HookDef :=
  {| FAVORITES_CATEGORY := "sports";
     FAVORITES_SUBCATEGORY := "mma";
     FAVORITES_TYPE := "category";
     Entity := string;
     Params := Api.Params;
     IdArg := string;
     entityItemId := fun categoryName => categoryName;
     argItemId := fun categoryName => categoryName |}.

(** The exported hooks. *)
Definition useBaseballGames {IndexerClient} := @useSportsHook IndexerClient BaseballGames.

Definition useBaseballTeams {IndexerClient} := @useSportsHook IndexerClient BaseballTeams.

Definition useBasketballLeagues {IndexerClient} := @useSportsHook IndexerClient BasketballLeagues.

Definition useBasketballTeams {IndexerClient} := @useSportsHook IndexerClient BasketballTeams.

Definition useFootballLeagues {IndexerClient} := @useSportsHook IndexerClient FootballLeagues.

Definition useFootballMatches {IndexerClient} := @useSportsHook IndexerClient FootballMatches.

Definition useFootballTeams {IndexerClient} := @useSportsHook IndexerClient FootballTeams.

Definition useHandballGames {IndexerClient} := @useSportsHook IndexerClient HandballGames.

Definition useHandballLeagues {IndexerClient} := @useSportsHook IndexerClient HandballLeagues.

Definition useMmaCategories {IndexerClient} := @useSportsHook IndexerClient MmaCategories.

Definition useMmaFighters {IndexerClient} := @useSportsHook IndexerClient MmaFighters.

Definition useMmaFights {IndexerClient} := @useSportsHook IndexerClient MmaFights.

Definition useNflGames {IndexerClient} := @useSportsHook IndexerClient NflGames.

Definition useNflLeagues {IndexerClient} := @useSportsHook IndexerClient NflLeagues.

Definition useNflTeams {IndexerClient} := @useSportsHook IndexerClient NflTeams.

Definition useRugbyGames {IndexerClient} := @useSportsHook IndexerClient RugbyGames.

Definition useRugbyLeagues {IndexerClient} := @useSportsHook IndexerClient RugbyLeagues.

Definition useVolleyballGames {IndexerClient} := @useSportsHook IndexerClient VolleyballGames.

Definition useVolleyballLeagues {IndexerClient} := @useSportsHook IndexerClient VolleyballLeagues.

Definition useVolleyballTeams {IndexerClient} := @useSportsHook IndexerClient VolleyballTeams.

(** Every hook of the repository. *)
Definition repositoryHooks : list HookDef :=
  [ BaseballGames; BaseballTeams; BasketballLeagues; BasketballTeams;
    FootballLeagues; FootballMatches; FootballTeams; HandballGames;
    HandballLeagues; MmaCategories; MmaFighters; MmaFights; NflGames;
    NflLeagues; NflTeams; RugbyGames; RugbyLeagues; VolleyballGames;
    VolleyballLeagues; VolleyballTeams ].

(** ** Test doubles

    The doubles the repository's tests install with [vi.mock]: an API hook
    that answers with a fixed list, a favourites hook over a fixed store
    that serves the records of the requested scope, and mutations that
    fulfil. *)

Definition mockMutation {V} : Mutation.t V :=
  Mutation.mk (fun _ => Fulfilled tt) false.

Definition failingMutation {V} (reason : Error) : Mutation.t V :=
  Mutation.mk (fun _ => Rejected reason) false.

Definition mockUseApi {P E} (response : list E) : option (Options.t P) -> Query.t E :=
  fun _ => Query.mk (Some (ApiResponse.mk response)) false false None.

Definition inScope (filter : FavoritesFilter.t) (f : WalletFavoriteData.t) : bool :=
  bool_decide (WalletFavoriteData.category f = FavoritesFilter.category filter)
  && bool_decide (WalletFavoriteData.subcategory f = FavoritesFilter.subcategory filter)
  && bool_decide (WalletFavoriteData.type f = FavoritesFilter.type filter).

Definition mockUseFavorites (store : list WalletFavoriteData.t)
    : unit -> option string -> FavoritesFilter.t -> Favorites.t :=
  fun _ _ filter =>
    Favorites.mk (List.filter (inScope filter) store)
      false false None mockMutation mockMutation.

(** The scenario of the specification: leagues 33 and 34, one favourite
    with handle 1 for item 33. *)
Definition league33 : Api.Identified := Api.mkIdentified 33 [("name", "NBA")].

Definition league34 : Api.Identified := Api.mkIdentified 34 [("name", "NCAA")].

Definition favorite1 : WalletFavoriteData.t :=
  WalletFavoriteData.mk 1 "33" "sports" "basketball" "league".

Definition mockWalletAddress : option string := Some "0x1234567890abcdef".

Definition scenario (store : list WalletFavoriteData.t)
    : Result.t Api.Identified number :=
  useBasketballLeagues (mockUseApi [league33; league34]) (mockUseFavorites store)
    tt mockWalletAddress None.

(** A second favourite for item 33 (a duplicate under another handle), one
    for item 34, and one of another scope. *)
Definition favorite2 : WalletFavoriteData.t :=
  WalletFavoriteData.mk 2 "33" "sports" "basketball" "league".

Definition favorite3 : WalletFavoriteData.t :=
  WalletFavoriteData.mk 3 "34" "sports" "basketball" "league".

Definition footballFavorite : WalletFavoriteData.t :=
  WalletFavoriteData.mk 7 "33" "sports" "football" "league".

(** An entity query that has no data yet. *)
Definition pendingUseApi {P E} : option (Options.t P) -> Query.t E :=
  fun _ => Query.mk None true false None.

(** Nested and string-typed entities. *)
Definition premierLeague : Api.LeagueResponse :=
  Api.mkLeagueResponse (Api.mkIdentified 39 [("name", "Premier League")])
    [("country", "England")].

Definition laLiga : Api.LeagueResponse :=
  Api.mkLeagueResponse (Api.mkIdentified 140 [("name", "La Liga")])
    [("country", "Spain")].

Definition footballFavorite39 : WalletFavoriteData.t :=
  WalletFavoriteData.mk 1 "39" "sports" "football" "league".

Definition flyweightFavorite : WalletFavoriteData.t :=
  WalletFavoriteData.mk 5 "Flyweight" "sports" "mma" "category".

(** Two more doubles: a favourites answer whose error fields are
    overwritten, and one whose snapshot is replaced. *)
Definition withError (fav : Favorites.t) (isError : bool) (error : option Error)
    : Favorites.t :=
  Favorites.mk (Favorites.favorites fav) (Favorites.isLoading fav) isError error
    (Favorites.addFavorite fav) (Favorites.removeFavorite fav).

Definition withFavorites (fav : Favorites.t) (favorites : list WalletFavoriteData.t)
    : Favorites.t :=
  Favorites.mk favorites (Favorites.isLoading fav) (Favorites.isError fav)
    (Favorites.error fav) (Favorites.addFavorite fav) (Favorites.removeFavorite fav).

(** [f.itemId === itemId] for some record [f] of the snapshot. *)
Definition isFavorite (favorites : list WalletFavoriteData.t) (itemId : string) : Prop :=
  ∃ f, f ∈ favorites ∧ WalletFavoriteData.itemId f = itemId.

(** A favourites answer whose mutations are flagged pending or idle. *)
Definition withPending (fav : Favorites.t) (addPending removePending : bool)
    : Favorites.t :=
  Favorites.mk (Favorites.favorites fav) (Favorites.isLoading fav) (Favorites.isError fav)
    (Favorites.error fav)
    (Mutation.mk (Mutation.settle (Favorites.addFavorite fav)) addPending)
    (Mutation.mk (Mutation.settle (Favorites.removeFavorite fav)) removePending).

(** How the mutation behind a journalled call settled. *)
Definition settleCall (fav : Favorites.t) (call : MutationCall) : Settled unit :=
  match call with
  | AddFavoriteCall request => Mutation.settle (Favorites.addFavorite fav) request
  | RemoveFavoriteCall handle => Mutation.settle (Favorites.removeFavorite fav) handle
  end.

(** A favourites hook whose query is still in flight. *)
Definition loadingUseFavorites : unit -> option string -> FavoritesFilter.t -> Favorites.t :=
  fun _ _ _ => Favorites.mk [] true false None mockMutation mockMutation.

(** An API hook that answers with the list unless a [season] parameter is
    given, in which case it has no data. *)
Definition seasonUseApi {E} (response : list E)
    : option (Options.t Api.Params) -> Query.t E :=
  fun options =>
    match options with
    | Some (Options.mk (Some (("season", _) :: _)) _) => Query.mk None true false None
    | _ => Query.mk (Some (ApiResponse.mk response)) false false None
    end.

(** * Properties *)

Example scenario_annotated :
  Result.items (scenario [favorite1])
  = [WithFavorite.mk league33 true; WithFavorite.mk league34 false].
Proof. vm_compute. reflexivity. Qed.

Example scenario_add :
  calls_of (Result.setFavorited (scenario [favorite1]) 33%Z true)
  = [AddFavoriteCall (AddFavoriteRequest.mk "sports" "basketball" "league" "33")].
Proof. vm_compute. reflexivity. Qed.

Example scenario_remove :
  calls_of (Result.setFavorited (scenario [favorite1]) 33%Z false)
  = [RemoveFavoriteCall 1].
Proof. vm_compute. reflexivity. Qed.

Example football_leagues_annotated :
  Result.items
    (useFootballLeagues (mockUseApi [premierLeague; laLiga])
       (mockUseFavorites [footballFavorite39; favorite1]) tt mockWalletAddress None)
  = [WithFavorite.mk premierLeague true; WithFavorite.mk laLiga false].
Proof. vm_compute. reflexivity. Qed.

Example mma_categories_annotated :
  Result.items
    (useMmaCategories (mockUseApi ["Bantamweight"; "Flyweight"])
       (mockUseFavorites [flyweightFavorite]) tt mockWalletAddress None)
  = [WithFavorite.mk "Bantamweight" false; WithFavorite.mk "Flyweight" true].
Proof. vm_compute. reflexivity. Qed.

Example mma_categories_remove :
  calls_of
    (Result.setFavorited
       (useMmaCategories (mockUseApi ["Bantamweight"; "Flyweight"])
          (mockUseFavorites [flyweightFavorite]) tt mockWalletAddress None)
       "Flyweight" false)
  = [RemoveFavoriteCall 5].
Proof. vm_compute. reflexivity. Qed.

Example scenario_remove_absent :
  Result.setFavorited (scenario [favorite1]) 34%Z false [] = ([], Fulfilled tt).
Proof. vm_compute. reflexivity. Qed.

(** ** The favourites set and the lookup *)

Lemma has_favoritedIds (favorites : list WalletFavoriteData.t) (x : string) :
  has (favoritedIds favorites) x = true ↔ isFavorite favorites x.
Proof.
  unfold has, favoritedIds, isFavorite.
  rewrite bool_decide_eq_true, elem_of_list_to_set, list_elem_of_fmap.
  split; intros (f & ? & ?); exists f; auto.
Qed.

Lemma has_favoritedIds_nil (x : string) : has (favoritedIds []) x = false.
Proof.
  apply not_true_is_false. rewrite has_favoritedIds.
  intros (f & Hf & _). by apply elem_of_nil in Hf.
Qed.

Lemma annotate_length (d : HookDef) (query : Query.t (Entity d)) (ids : gset string) :
  length (annotate d query ids) = length (responseOrEmpty query).
Proof. unfold annotate. apply length_fmap. Qed.

Lemma annotate_lookup (d : HookDef) (query : Query.t (Entity d)) (ids : gset string)
    (i : nat) :
  annotate d query ids !! i
  = (fun e => WithFavorite.mk e (has ids (entityItemId d e))) <$> responseOrEmpty query !! i.
Proof. unfold annotate. apply list_lookup_fmap. Qed.

(** No two hooks of the repository share a favourites scope. *)
Lemma repository_scopes_distinct : NoDup (favoritesFilter <$> repositoryHooks).
Proof. apply (bool_decide_unpack _). vm_compute. exact I. Qed.

(** ** The callback *)

(** [Array.prototype.find] returns the first element that passes, whatever
    follows it. *)
Lemma find_first_match {A} (p : A → bool) (before after : list A) (x : A) :
  (∀ y, y ∈ before → p y = false) → p x = true →
  find p (before ++ x :: after) = Some x.
Proof.
  intros Hbefore Hx. induction before as [| y before IH]; simpl.
  - by rewrite Hx.
  - rewrite (Hbefore y) by left.
    apply IH. intros z Hz. apply Hbefore. by right.
Qed.

Lemma find_itemId_Some (favorites : list WalletFavoriteData.t) (itemId : string)
    (f : WalletFavoriteData.t) :
  find (fun g => bool_decide (WalletFavoriteData.itemId g = itemId)) favorites = Some f →
  f ∈ favorites ∧ WalletFavoriteData.itemId f = itemId.
Proof.
  intros Hfind. apply find_some in Hfind as [Hin Hp].
  split; [by apply list_elem_of_In | by apply bool_decide_eq_true in Hp].
Qed.

Lemma find_itemId_None (favorites : list WalletFavoriteData.t) (itemId : string) :
  find (fun g => bool_decide (WalletFavoriteData.itemId g = itemId)) favorites = None
  ↔ ¬ isFavorite favorites itemId.
Proof.
  split.
  - intros Hfind (f & Hin & Heq).
    apply list_elem_of_In in Hin.
    pose proof (find_none _ _ Hfind f Hin) as Hp. simpl in Hp.
    by apply bool_decide_eq_false in Hp.
  - intros Hnone.
    destruct (find _ favorites) as [f |] eqn:Hfind; [| done].
    destruct Hnone. exists f. by apply find_itemId_Some.
Qed.

(** Awaiting one mutation and returning: one journal entry, and the
    callback settles as the mutation did. *)
Lemma await_mutation {V} (record : V → MutationCall) (m : Mutation.t V) (v : V)
    (journal : list MutationCall) :
  (mutateAsync record m v ;; mret tt) journal
  = (journal ++ [record v], Mutation.settle m v).
Proof.
  unfold mbind, Async_bind, mutateAsync, mret, Async_ret.
  by destruct (Mutation.settle m v) as [[] | reason].
Qed.

Lemma setFavorited_true (d : HookDef) (fav : Favorites.t) (idArg : IdArg d)
    (journal : list MutationCall) :
  let request :=
    AddFavoriteRequest.mk (FAVORITES_CATEGORY d) (FAVORITES_SUBCATEGORY d)
      (FAVORITES_TYPE d) (argItemId d idArg) in
  setFavorited d fav idArg true journal
  = (journal ++ [AddFavoriteCall request],
     Mutation.settle (Favorites.addFavorite fav) request).
Proof. apply await_mutation. Qed.

Lemma setFavorited_false_found (d : HookDef) (fav : Favorites.t) (idArg : IdArg d)
    (favorite : WalletFavoriteData.t) (journal : list MutationCall) :
  find (fun g => bool_decide (WalletFavoriteData.itemId g = argItemId d idArg))
       (Favorites.favorites fav) = Some favorite →
  setFavorited d fav idArg false journal
  = (journal ++ [RemoveFavoriteCall (WalletFavoriteData.id favorite)],
     Mutation.settle (Favorites.removeFavorite fav) (WalletFavoriteData.id favorite)).
Proof.
  intros Hfind. unfold setFavorited. rewrite Hfind. apply await_mutation.
Qed.

Lemma setFavorited_false_missing (d : HookDef) (fav : Favorites.t) (idArg : IdArg d)
    (journal : list MutationCall) :
  find (fun g => bool_decide (WalletFavoriteData.itemId g = argItemId d idArg))
       (Favorites.favorites fav) = None →
  setFavorited d fav idArg false journal = (journal, Fulfilled tt).
Proof.
  intros Hfind. unfold setFavorited. by rewrite Hfind.
Qed.

Section HookProperties.
Context {IndexerClient : Type}.
Variable d : HookDef.
Variable useApi : option (Options.t (Params d)) -> Query.t (Entity d).
Variable useFavorites : IndexerClient -> option string -> FavoritesFilter.t -> Favorites.t.
Variable indexerClient : IndexerClient.
Variable walletAddress : option string.
Variable options : option (Options.t (Params d)).

(** The render under study, the entity query's answer, the favourites
    answer and its snapshot. *)
Let result := useSportsHook d useApi useFavorites indexerClient walletAddress options.
Let query := useApi options.
Let fav := useFavorites indexerClient walletAddress (favoritesFilter d).
Let F := Favorites.favorites fav.

(** C1. When the entity query delivers the list [E], the annotated list has
    exactly [length E] items, its i-th item carries the i-th entity, and that
    item's [favorited] flag is true if and only if some favourite of the
    snapshot has [itemId] equal to the entity's stringified identifier. *)
Theorem annotated_list_join (E : list (Entity d)) :
  Query.data query = Some (ApiResponse.mk E) →
  length (Result.items result) = length E
  ∧ ∀ i e, E !! i = Some e →
      ∃ item, Result.items result !! i = Some item
        ∧ WithFavorite.entity item = e
        ∧ (WithFavorite.favorited item = true ↔ isFavorite F (entityItemId d e)).
Proof.
  intros Hdata.
  assert (Hresp : responseOrEmpty (useApi options) = E).
  { unfold responseOrEmpty. fold query. by rewrite Hdata. }
  split.
  - simpl. by rewrite annotate_length, Hresp.
  - intros i e Hi. simpl. rewrite annotate_lookup, Hresp, Hi. simpl.
    eexists. split; [reflexivity |]. split; [reflexivity |].
    simpl. apply has_favoritedIds.
Qed.

(** C7. [isLoading] is true if and only if the entity fetch is loading or
    the favourites fetch is loading. *)
Theorem isLoading_is_or :
  Result.isLoading result = Query.isLoading query || Favorites.isLoading fav
  ∧ (Result.isLoading result = true
     ↔ Query.isLoading query = true ∨ Favorites.isLoading fav = true).
Proof.
  split; [reflexivity |]. simpl. apply orb_true_iff.
Qed.

(** C8. When the entity query has no data, the annotated list is empty, and
    [isError] and [error] are still the entity query's own fields. *)
Theorem no_data_gives_empty_list :
  Query.data query = None →
  Result.items result = []
  ∧ Result.isError result = Query.isError query
  ∧ Result.error result = Query.error query.
Proof.
  intros Hdata. split; [| split; reflexivity].
  simpl. unfold annotate, responseOrEmpty. fold query. by rewrite Hdata.
Qed.

(** C2. [isError] and [error] are the entity query's own; overwriting the
    favourites answer's error fields with anything changes no returned
    field; so with a failed favourites fetch and a successful entity fetch
    [isError] is false and [error] is null; and with an empty snapshot every
    item is annotated as not favourited. *)
Theorem favorites_error_not_surfaced (isError' : bool) (error' : option Error) :
  let useFavorites' := fun ic w filter => withError (useFavorites ic w filter) isError' error' in
  let result' := useSportsHook d useApi useFavorites' indexerClient walletAddress options in
  Result.isError result = Query.isError query
  ∧ Result.error result = Query.error query
  ∧ result' = result
  ∧ (Query.isError query = false → Query.error query = None →
     Result.isError result' = false ∧ Result.error result' = None)
  ∧ (F = [] → ∀ item, item ∈ Result.items result → WithFavorite.favorited item = false).
Proof.
  repeat split; try reflexivity; try (simpl; tauto).
  intros HF item Hitem. simpl in Hitem. fold fav in Hitem. fold F in Hitem.
  rewrite HF in Hitem. unfold annotate in Hitem.
  apply list_elem_of_fmap in Hitem as (e & -> & _). simpl.
  apply has_favoritedIds_nil.
Qed.

(** C3. If the snapshot holds a record whose [itemId] is the stringified id,
    then [setFavorited(id, false)] journals exactly one call, a remove
    carrying the [id] handle of such a record, and no add; it settles as
    that remove does. *)
Theorem unfavorite_removes_by_handle (idArg : IdArg d) :
  isFavorite F (argItemId d idArg) →
  ∃ f, f ∈ F
    ∧ WalletFavoriteData.itemId f = argItemId d idArg
    ∧ ∀ journal,
        Result.setFavorited result idArg false journal
        = (journal ++ [RemoveFavoriteCall (WalletFavoriteData.id f)],
           Mutation.settle (Favorites.removeFavorite fav) (WalletFavoriteData.id f)).
Proof.
  intros Hfav.
  destruct (find (fun g => bool_decide (WalletFavoriteData.itemId g = argItemId d idArg)) F)
    as [f |] eqn:Hfind.
  - destruct (find_itemId_Some _ _ _ Hfind) as [Hin Hid].
    exists f. repeat split; [done | done |].
    intros journal. by apply setFavorited_false_found.
  - by apply find_itemId_None in Hfind.
Qed.

(** C4. If no record of the snapshot has the stringified id as [itemId],
    [setFavorited(id, false)] journals nothing and fulfils. *)
Theorem unfavorite_absent_is_noop (idArg : IdArg d) :
  ¬ isFavorite F (argItemId d idArg) →
  ∀ journal, Result.setFavorited result idArg false journal = (journal, Fulfilled tt).
Proof.
  intros Hnone journal. apply setFavorited_false_missing.
  by apply find_itemId_None.
Qed.

(** C5. [setFavorited(id, true)] journals exactly one call, the add with
    the request [{category, subcategory, type, id: String(id)}] built from
    the hook's three constants, and settles exactly as that mutation
    settles.  Nothing local is updated: for an id that the snapshot does not
    hold, after a fulfilled add the same callback still finds no favourite
    (a following [setFavorited(id, false)] journals nothing more), and the
    items with that id are still annotated as not favourited. *)
Theorem favorite_adds_scoped_request (idArg : IdArg d) (journal : list MutationCall) :
  let request :=
    AddFavoriteRequest.mk (FAVORITES_CATEGORY d) (FAVORITES_SUBCATEGORY d)
      (FAVORITES_TYPE d) (argItemId d idArg) in
  Result.setFavorited result idArg true journal
  = (journal ++ [AddFavoriteCall request],
     Mutation.settle (Favorites.addFavorite fav) request)
  ∧ (¬ isFavorite F (argItemId d idArg) →
     Mutation.settle (Favorites.addFavorite fav) request = Fulfilled tt →
     (Result.setFavorited result idArg true ;; Result.setFavorited result idArg false) journal
     = (journal ++ [AddFavoriteCall request], Fulfilled tt)
     ∧ ∀ item, item ∈ Result.items result →
         entityItemId d (WithFavorite.entity item) = argItemId d idArg →
         WithFavorite.favorited item = false).
Proof.
  intros request.
  assert (Hadd : Result.setFavorited result idArg true journal
                 = (journal ++ [AddFavoriteCall request],
                    Mutation.settle (Favorites.addFavorite fav) request))
    by apply setFavorited_true.
  split; [exact Hadd |].
  intros Hnone Hfulfilled. split.
  - unfold mbind, Async_bind. rewrite Hadd, Hfulfilled.
    apply setFavorited_false_missing. by apply find_itemId_None.
  - intros item Hitem Hid. unfold result, useSportsHook in Hitem.
    cbn [Result.items] in Hitem. unfold annotate in Hitem.
    apply list_elem_of_fmap in Hitem as (e & -> & _). simpl in *.
    apply not_true_is_false. rewrite has_favoritedIds, Hid. exact Hnone.
Qed.

(** C6. Whatever the snapshot is, also one that already holds a favourite
    for the id, [setFavorited(id, true)] journals the same single add call:
    the favorited path never looks at the snapshot. *)
Theorem favorite_add_is_unconditional (idArg : IdArg d)
    (snapshot : list WalletFavoriteData.t) :
  let useFavorites' := fun ic w filter => withFavorites (useFavorites ic w filter) snapshot in
  let result' := useSportsHook d useApi useFavorites' indexerClient walletAddress options in
  let request :=
    AddFavoriteRequest.mk (FAVORITES_CATEGORY d) (FAVORITES_SUBCATEGORY d)
      (FAVORITES_TYPE d) (argItemId d idArg) in
  Favorites.favorites (useFavorites' indexerClient walletAddress (favoritesFilter d)) = snapshot
  ∧ calls_of (Result.setFavorited result' idArg true) = [AddFavoriteCall request]
  ∧ Result.setFavorited result' idArg true = Result.setFavorited result idArg true.
Proof.
  repeat split. unfold calls_of, useSportsHook. cbn [Result.setFavorited].
  by rewrite setFavorited_true.
Qed.

(** C9. The hook reads favourites only through the query for its own
    triple: a favourites source that answers alike for that triple yields
    the same result, and the surfaced loading flag is that query's.  Every
    add call made by [setFavorited] carries the same triple, and every
    remove call carries the handle of a record of that query's snapshot. *)
Theorem hook_stays_in_scope :
  let scope :=
    FavoritesFilter.mk (FAVORITES_CATEGORY d) (FAVORITES_SUBCATEGORY d) (FAVORITES_TYPE d) in
  (∀ useFavorites' : IndexerClient → option string → FavoritesFilter.t → Favorites.t,
     useFavorites' indexerClient walletAddress scope
     = useFavorites indexerClient walletAddress scope →
     useSportsHook d useApi useFavorites' indexerClient walletAddress options = result)
  ∧ Result.favoritesLoading result
    = Favorites.isLoading (useFavorites indexerClient walletAddress scope)
  ∧ ∀ idArg favorited call,
      call ∈ calls_of (Result.setFavorited result idArg favorited) →
      match call with
      | AddFavoriteCall request =>
          FavoritesFilter.mk (AddFavoriteRequest.category request)
            (AddFavoriteRequest.subcategory request) (AddFavoriteRequest.type request)
          = scope
      | RemoveFavoriteCall handle =>
          ∃ f, f ∈ Favorites.favorites (useFavorites indexerClient walletAddress scope)
            ∧ WalletFavoriteData.id f = handle
      end.
Proof.
  split; [| split].
  - intros useFavorites' Hsame. unfold result, useSportsHook, favoritesFilter.
    by rewrite Hsame.
  - reflexivity.
  - intros idArg favorited call Hcall.
    unfold calls_of, result, useSportsHook in Hcall.
    cbn [Result.setFavorited] in Hcall. fold (favoritesFilter d) in *.
    destruct favorited.
    + rewrite setFavorited_true in Hcall. simpl in Hcall.
      apply list_elem_of_singleton in Hcall as ->. reflexivity.
    + destruct (find (fun g => bool_decide (WalletFavoriteData.itemId g = argItemId d idArg))
                  F) as [f |] eqn:Hfind.
      * rewrite (setFavorited_false_found _ _ _ f) in Hcall by done. simpl in Hcall.
        apply list_elem_of_singleton in Hcall as ->.
        exists f. split; [| done]. by apply (find_itemId_Some _ _ _ Hfind).
      * rewrite setFavorited_false_missing in Hcall by done. simpl in Hcall.
        by apply elem_of_nil in Hcall.
Qed.

(** C10. If the snapshot is [before ++ f :: after], where [f] is the first
    record whose [itemId] is the stringified id, then
    [setFavorited(id, false)] journals exactly one remove call, with the
    handle of [f], however many records of [after] carry the same
    [itemId]; no record of [after] with another handle is removed. *)
Theorem unfavorite_removes_first_duplicate (idArg : IdArg d)
    (before after : list WalletFavoriteData.t) (f : WalletFavoriteData.t) :
  F = before ++ f :: after →
  (∀ g, g ∈ before → WalletFavoriteData.itemId g ≠ argItemId d idArg) →
  WalletFavoriteData.itemId f = argItemId d idArg →
  (∀ journal,
     Result.setFavorited result idArg false journal
     = (journal ++ [RemoveFavoriteCall (WalletFavoriteData.id f)],
        Mutation.settle (Favorites.removeFavorite fav) (WalletFavoriteData.id f)))
  ∧ ∀ g, g ∈ after → WalletFavoriteData.itemId g = argItemId d idArg →
      WalletFavoriteData.id g ≠ WalletFavoriteData.id f →
      RemoveFavoriteCall (WalletFavoriteData.id g)
      ∉ calls_of (Result.setFavorited result idArg false).
Proof.
  intros HF Hbefore Hf.
  assert (Hfind : find (fun g => bool_decide (WalletFavoriteData.itemId g = argItemId d idArg))
                    (Favorites.favorites fav) = Some f).
  { fold F. rewrite HF. apply find_first_match.
    - intros g Hg. apply bool_decide_eq_false. by apply Hbefore.
    - by apply bool_decide_eq_true. }
  split.
  - intros journal. by apply setFavorited_false_found.
  - intros g _ _ Hne Hcall.
    unfold calls_of, result, useSportsHook in Hcall.
    cbn [Result.setFavorited] in Hcall.
    rewrite (setFavorited_false_found _ _ _ f) in Hcall by done. simpl in Hcall.
    apply list_elem_of_singleton in Hcall. congruence.
Qed.

End HookProperties.

(** ** The properties on the scenario *)

Lemma annotated_list_join_witness :
  Query.data (mockUseApi (P := Api.Params) [league33; league34] None)
  = Some (ApiResponse.mk [league33; league34])
  ∧ length (Result.items (scenario [favorite1])) = 2
  ∧ ∀ i e, [league33; league34] !! i = Some e →
      ∃ item, Result.items (scenario [favorite1]) !! i = Some item
        ∧ WithFavorite.entity item = e
        ∧ (WithFavorite.favorited item = true
           ↔ isFavorite [favorite1] (String_ (Api.id e))).
Proof.
  split; [reflexivity |].
  exact (annotated_list_join BasketballLeagues (mockUseApi [league33; league34])
           (mockUseFavorites [favorite1]) tt mockWalletAddress None
           [league33; league34] eq_refl).
Defined.

Lemma favorites_error_not_surfaced_witness :
  let failed := fun ic w filter =>
    withError (mockUseFavorites [] ic w filter) true (Some "indexer unavailable") in
  let result :=
    useBasketballLeagues (mockUseApi [league33; league34]) failed tt mockWalletAddress None in
  Result.isError result = false
  ∧ Result.error result = None
  ∧ ∀ item, item ∈ Result.items (scenario []) → WithFavorite.favorited item = false.
Proof.
  destruct (favorites_error_not_surfaced BasketballLeagues (mockUseApi [league33; league34])
              (mockUseFavorites []) tt mockWalletAddress None true
              (Some "indexer unavailable"))
    as (_ & _ & _ & Hentity & Hempty).
  destruct (Hentity eq_refl eq_refl) as [HisError Herror].
  split; [exact HisError |]. split; [exact Herror |].
  exact (Hempty eq_refl).
Defined.

Lemma unfavorite_removes_by_handle_witness :
  isFavorite [favorite1] "33"
  ∧ ∃ f, f ∈ [favorite1]
      ∧ WalletFavoriteData.itemId f = "33"
      ∧ ∀ journal,
          Result.setFavorited (scenario [favorite1]) 33%Z false journal
          = (journal ++ [RemoveFavoriteCall (WalletFavoriteData.id f)], Fulfilled tt).
Proof.
  assert (Hfav : isFavorite [favorite1] "33").
  { exists favorite1. split; [left | reflexivity]. }
  split; [exact Hfav |].
  exact (unfavorite_removes_by_handle BasketballLeagues (mockUseApi [league33; league34])
           (mockUseFavorites [favorite1]) tt mockWalletAddress None 33%Z Hfav).
Defined.

Lemma unfavorite_absent_is_noop_witness :
  ¬ isFavorite [favorite1] "34"
  ∧ ∀ journal,
      Result.setFavorited (scenario [favorite1]) 34%Z false journal
      = (journal, Fulfilled tt).
Proof.
  assert (Hnone : ¬ isFavorite [favorite1] "34").
  { intros (f & Hin & Hid). apply list_elem_of_singleton in Hin. subst f. discriminate Hid. }
  split; [exact Hnone |].
  exact (unfavorite_absent_is_noop BasketballLeagues (mockUseApi [league33; league34])
           (mockUseFavorites [favorite1]) tt mockWalletAddress None 34%Z Hnone).
Defined.

Lemma favorite_adds_scoped_request_witness :
  let request := AddFavoriteRequest.mk "sports" "basketball" "league" "34" in
  ¬ isFavorite [favorite1] "34"
  ∧ Result.setFavorited (scenario [favorite1]) 34%Z true []
    = ([AddFavoriteCall request], Fulfilled tt)
  ∧ (Result.setFavorited (scenario [favorite1]) 34%Z true ;;
     Result.setFavorited (scenario [favorite1]) 34%Z false) []
    = ([AddFavoriteCall request], Fulfilled tt)
  ∧ ∀ item, item ∈ Result.items (scenario [favorite1]) →
      String_ (Api.id (WithFavorite.entity item)) = "34" →
      WithFavorite.favorited item = false.
Proof.
  assert (Hnone : ¬ isFavorite [favorite1] "34").
  { intros (f & Hin & Hid). apply list_elem_of_singleton in Hin. subst f. discriminate Hid. }
  destruct (favorite_adds_scoped_request BasketballLeagues (mockUseApi [league33; league34])
              (mockUseFavorites [favorite1]) tt mockWalletAddress None 34%Z [])
    as [Hadd Hstale].
  destruct (Hstale Hnone eq_refl) as [Hagain Hitems].
  split; [exact Hnone |]. split; [exact Hadd |]. split; [exact Hagain | exact Hitems].
Defined.

Lemma no_data_gives_empty_list_witness :
  Query.data (pendingUseApi (P := Api.Params) (E := Api.Identified) None) = None
  ∧ Result.items
      (useBasketballLeagues pendingUseApi (mockUseFavorites [favorite1]) tt
         mockWalletAddress None) = []
  ∧ Result.isError
      (useBasketballLeagues pendingUseApi (mockUseFavorites [favorite1]) tt
         mockWalletAddress None) = false
  ∧ Result.error
      (useBasketballLeagues pendingUseApi (mockUseFavorites [favorite1]) tt
         mockWalletAddress None) = None.
Proof.
  split; [reflexivity |].
  exact (no_data_gives_empty_list BasketballLeagues pendingUseApi
           (mockUseFavorites [favorite1]) tt mockWalletAddress None eq_refl).
Defined.

Lemma hook_stays_in_scope_witness :
  mockUseFavorites [favorite1; footballFavorite] tt mockWalletAddress
    (favoritesFilter BasketballLeagues)
  = mockUseFavorites [favorite1] tt mockWalletAddress (favoritesFilter BasketballLeagues)
  ∧ useBasketballLeagues (mockUseApi [league33; league34])
      (mockUseFavorites [favorite1; footballFavorite]) tt mockWalletAddress None
    = scenario [favorite1].
Proof.
  split; [reflexivity |].
  destruct (hook_stays_in_scope BasketballLeagues (mockUseApi [league33; league34])
              (mockUseFavorites [favorite1]) tt mockWalletAddress None)
    as (Hreads & _ & _).
  exact (Hreads (mockUseFavorites [favorite1; footballFavorite]) eq_refl).
Defined.

Lemma unfavorite_removes_first_duplicate_witness :
  [favorite3; favorite1; favorite2] = [favorite3] ++ favorite1 :: [favorite2]
  ∧ WalletFavoriteData.itemId favorite1 = "33"
  ∧ WalletFavoriteData.itemId favorite2 = "33"
  ∧ (∀ journal,
       Result.setFavorited (scenario [favorite3; favorite1; favorite2]) 33%Z false journal
       = (journal ++ [RemoveFavoriteCall 1], Fulfilled tt))
  ∧ RemoveFavoriteCall 2
    ∉ calls_of (Result.setFavorited (scenario [favorite3; favorite1; favorite2]) 33%Z false).
Proof.
  assert (Hbefore : ∀ g, g ∈ [favorite3] → WalletFavoriteData.itemId g ≠ "33").
  { intros g Hg. apply list_elem_of_singleton in Hg. subst g. discriminate. }
  destruct (unfavorite_removes_first_duplicate BasketballLeagues
              (mockUseApi [league33; league34])
              (mockUseFavorites [favorite3; favorite1; favorite2]) tt mockWalletAddress None
              33%Z [favorite3] [favorite2] favorite1 eq_refl Hbefore eq_refl)
    as [Hfirst Hlater].
  split; [reflexivity |]. split; [reflexivity |]. split; [reflexivity |].
  split; [exact Hfirst |].
  apply (Hlater favorite2); [left | reflexivity | discriminate].
Defined.

(** ** Further properties of the template *)

(** Whatever the journal it starts from, the callback appends the calls it
    makes from an empty one and settles the same way. *)
Lemma setFavorited_frame (d : HookDef) (fav : Favorites.t) (idArg : IdArg d)
    (favorited : bool) (journal : list MutationCall) :
  setFavorited d fav idArg favorited journal
  = (journal ++ calls_of (setFavorited d fav idArg favorited),
     outcome_of (setFavorited d fav idArg favorited)).
Proof.
  unfold calls_of, outcome_of. destruct favorited.
  - by rewrite !setFavorited_true.
  - destruct (find (fun g => bool_decide (WalletFavoriteData.itemId g = argItemId d idArg))
                (Favorites.favorites fav)) as [f |] eqn:Hfind.
    + by rewrite !(setFavorited_false_found _ _ _ f) by done.
    + rewrite !setFavorited_false_missing by done. simpl. by rewrite app_nil_r.
Qed.

Lemma favoritedIds_same_items (F F' : list WalletFavoriteData.t) :
  (∀ x, isFavorite F x ↔ isFavorite F' x) → favoritedIds F = favoritedIds F'.
Proof.
  intros Hsame. apply set_eq. intros x.
  pose proof (has_favoritedIds F x) as HF. pose proof (has_favoritedIds F' x) as HF'.
  unfold has in HF, HF'. rewrite bool_decide_eq_true in HF, HF'.
  rewrite HF, HF'. apply Hsame.
Qed.


Section TemplateProperties.
Context {IndexerClient : Type}.
Variable d : HookDef.
Variable useApi : option (Options.t (Params d)) -> Query.t (Entity d).
Variable useFavorites : IndexerClient -> option string -> FavoritesFilter.t -> Favorites.t.
Variable indexerClient : IndexerClient.
Variable walletAddress : option string.
Variable options : option (Options.t (Params d)).

Let result := useSportsHook d useApi useFavorites indexerClient walletAddress options.
Let query := useApi options.
Let fav := useFavorites indexerClient walletAddress (favoritesFilter d).
Let F := Favorites.favorites fav.

(** X1. The toggle of the hooks' usage example,
    [setFavorited(id, !item.favorited)] for an item of the returned list,
    always issues exactly one mutation: an add carrying the item's id when
    the item is shown as not favourited, a remove carrying the handle of a
    record stored for that id when it is shown as favourited. *)
Theorem toggle_issues_one_call (item : WithFavorite.t (Entity d)) (idArg : IdArg d) :
  item ∈ Result.items result →
  argItemId d idArg = entityItemId d (WithFavorite.entity item) →
  ∃ call,
    calls_of (Result.setFavorited result idArg (negb (WithFavorite.favorited item))) = [call]
    ∧ match call with
      | AddFavoriteCall request =>
          WithFavorite.favorited item = false
          ∧ AddFavoriteRequest.id request = entityItemId d (WithFavorite.entity item)
      | RemoveFavoriteCall handle =>
          WithFavorite.favorited item = true
          ∧ ∃ f, f ∈ F ∧ WalletFavoriteData.id f = handle
              ∧ WalletFavoriteData.itemId f = entityItemId d (WithFavorite.entity item)
      end.
Proof.
  intros Hitem Hid.
  unfold result, useSportsHook in Hitem |- *.
  cbn [Result.items Result.setFavorited] in Hitem |- *.
  fold fav in Hitem |- *. fold F in Hitem |- *. unfold annotate in Hitem.
  apply list_elem_of_fmap in Hitem as (e & -> & _). cbn [WithFavorite.entity WithFavorite.favorited] in *.
  unfold calls_of.
  destruct (has (favoritedIds F) (entityItemId d e)) eqn:Hhas; cbn [negb].
  - apply has_favoritedIds in Hhas. rewrite <- Hid in Hhas.
    destruct (find (fun g => bool_decide (WalletFavoriteData.itemId g = argItemId d idArg)) F)
      as [f |] eqn:Hfind.
    + rewrite (setFavorited_false_found _ _ _ f) by done.
      destruct (find_itemId_Some _ _ _ Hfind) as [Hin Hf].
      eexists. split; [reflexivity |]. split; [done |].
      exists f. rewrite <- Hid. done.
    + by apply find_itemId_None in Hfind.
  - rewrite setFavorited_true. eexists. split; [reflexivity |]. by split.
Qed.

(** X2. The flag and the un-favourite lookup agree: for an item of the
    returned list, [setFavorited(id, false)] issues a remove call exactly
    when the item is annotated as favourited, and is a silent no-op exactly
    when it is not. *)
Theorem favorited_iff_unfavorite_removes (item : WithFavorite.t (Entity d))
    (idArg : IdArg d) :
  item ∈ Result.items result →
  argItemId d idArg = entityItemId d (WithFavorite.entity item) →
  (WithFavorite.favorited item = true
   ↔ ∃ handle, calls_of (Result.setFavorited result idArg false) = [RemoveFavoriteCall handle])
  ∧ (WithFavorite.favorited item = false
     ↔ ∀ journal, Result.setFavorited result idArg false journal = (journal, Fulfilled tt)).
Proof.
  intros Hitem Hid.
  unfold result, useSportsHook in Hitem |- *.
  cbn [Result.items Result.setFavorited] in Hitem |- *.
  fold fav in Hitem |- *. fold F in Hitem |- *. unfold annotate in Hitem.
  apply list_elem_of_fmap in Hitem as (e & -> & _). cbn [WithFavorite.entity WithFavorite.favorited] in *.
  unfold calls_of. rewrite <- Hid.
  destruct (find (fun g => bool_decide (WalletFavoriteData.itemId g = argItemId d idArg)) F)
    as [f |] eqn:Hfind.
  - assert (Hhas : has (favoritedIds F) (argItemId d idArg) = true).
    { apply has_favoritedIds. exists f. by apply find_itemId_Some. }
    rewrite Hhas. split; split; try done.
    + intros _. eexists. by rewrite (setFavorited_false_found _ _ _ f) by done.
    + intros Hnoop. specialize (Hnoop []).
      rewrite (setFavorited_false_found _ _ _ f) in Hnoop by done. discriminate Hnoop.
  - assert (Hhas : has (favoritedIds F) (argItemId d idArg) = false).
    { apply not_true_is_false. rewrite has_favoritedIds. by apply find_itemId_None. }
    rewrite Hhas. split; split; try done.
    + intros [handle Hcalls]. by rewrite setFavorited_false_missing in Hcalls.
    + intros _ journal. by apply setFavorited_false_missing.
Qed.

(** X3. The annotated list depends on the snapshot only through the set of
    its item ids: a snapshot with the same item ids in another order, with
    repeats, or under other handles gives the same list. *)
Theorem annotation_depends_on_itemId_set (snapshot : list WalletFavoriteData.t) :
  (∀ x, isFavorite F x ↔ isFavorite snapshot x) →
  Result.items
    (useSportsHook d useApi
       (fun ic w filter => withFavorites (useFavorites ic w filter) snapshot)
       indexerClient walletAddress options)
  = Result.items result.
Proof.
  intros Hsame. unfold result, useSportsHook. cbn [Result.items withFavorites Favorites.favorites].
  fold fav. fold F. by rewrite (favoritedIds_same_items F snapshot).
Qed.

(** X4. One invocation of [setFavorited] issues at most one mutation, an
    add only when asked to favourite and a remove only when asked to
    un-favourite; it settles exactly as that mutation settled (so a
    rejection reaches the caller with its reason) and fulfils when it
    issued none; and it leaves earlier journal entries in place. *)
Theorem setFavorited_one_call_discipline (idArg : IdArg d) (favorited : bool) :
  let callback := Result.setFavorited result idArg favorited in
  (length (calls_of callback) ≤ 1)%nat
  ∧ (∀ call, call ∈ calls_of callback →
       match call with
       | AddFavoriteCall _ => favorited = true
       | RemoveFavoriteCall _ => favorited = false
       end)
  ∧ outcome_of callback
    = match calls_of callback with
      | [] => Fulfilled tt
      | call :: _ => settleCall fav call
      end
  ∧ ∀ journal, callback journal = (journal ++ calls_of callback, outcome_of callback).
Proof.
  intros callback. unfold callback, result, useSportsHook. cbn [Result.setFavorited].
  fold fav.
  split; [| split; [| split]]; [| | | apply setFavorited_frame];
    unfold calls_of, outcome_of; destruct favorited.
  - rewrite setFavorited_true. simpl. lia.
  - destruct (find (fun g => bool_decide (WalletFavoriteData.itemId g = argItemId d idArg))
                (Favorites.favorites fav)) as [f |] eqn:Hfind.
    + rewrite (setFavorited_false_found _ _ _ f) by done. simpl. lia.
    + rewrite setFavorited_false_missing by done. simpl. lia.
  - intros call. rewrite setFavorited_true. simpl.
    intros Hcall. by apply list_elem_of_singleton in Hcall as ->.
  - intros call.
    destruct (find (fun g => bool_decide (WalletFavoriteData.itemId g = argItemId d idArg))
                (Favorites.favorites fav)) as [f |] eqn:Hfind.
    + rewrite (setFavorited_false_found _ _ _ f) by done. simpl.
      intros Hcall. by apply list_elem_of_singleton in Hcall as ->.
    + rewrite setFavorited_false_missing by done. simpl.
      intros Hcall. by apply elem_of_nil in Hcall.
  - by rewrite setFavorited_true.
  - destruct (find (fun g => bool_decide (WalletFavoriteData.itemId g = argItemId d idArg))
                (Favorites.favorites fav)) as [f |] eqn:Hfind.
    + by rewrite (setFavorited_false_found _ _ _ f) by done.
    + by rewrite setFavorited_false_missing by done.
Qed.


(** X9. Pending mutations are neither loading nor a lock: whatever the two
    [isPending] flags are, they come back as [addFavoritePending] and
    [removeFavoritePending] and change nothing else: [isLoading], the list
    and the callback (which issues its mutation all the same) are as with
    idle mutations.  And [isLoading] is true whenever [favoritesLoading] is. *)
Theorem pending_is_not_loading (addPending removePending : bool) :
  let result' :=
    useSportsHook d useApi
      (fun ic w filter => withPending (useFavorites ic w filter) addPending removePending)
      indexerClient walletAddress options in
  Result.addFavoritePending result' = addPending
  ∧ Result.removeFavoritePending result' = removePending
  ∧ Result.isLoading result' = Result.isLoading result
  ∧ Result.items result' = Result.items result
  ∧ Result.setFavorited result' = Result.setFavorited result
  ∧ (Result.favoritesLoading result = true → Result.isLoading result = true).
Proof.
  repeat split. simpl. intros ->. apply orb_true_r.
Qed.

(** X10. The options reach the entity query and nothing else: an API hook
    that answers alike for these options gives the same result, and for
    any other API hook and options (also [enabled: false]) the callback,
    the favourites loading flag and the pending flags are unchanged. *)
Theorem options_reach_only_entity_query
    (useApi' : option (Options.t (Params d)) → Query.t (Entity d))
    (options' : option (Options.t (Params d))) :
  let other := useSportsHook d useApi' useFavorites indexerClient walletAddress options' in
  (useApi' options = useApi options →
   useSportsHook d useApi' useFavorites indexerClient walletAddress options = result)
  ∧ Result.setFavorited other = Result.setFavorited result
  ∧ Result.favoritesLoading other = Result.favoritesLoading result
  ∧ Result.addFavoritePending other = Result.addFavoritePending result
  ∧ Result.removeFavoritePending other = Result.removeFavoritePending result.
Proof.
  repeat split. intros Hsame. unfold result, useSportsHook. by rewrite Hsame.
Qed.

(** X11. The list is empty exactly when the entity query has no data or its
    response is empty: the two cases cannot be told apart from the list,
    whatever the favourites are. *)
Theorem items_empty_iff :
  Result.items result = []
  ↔ Query.data query = None
    ∨ ∃ body, Query.data query = Some body ∧ ApiResponse.response body = [].
Proof.
  unfold result, useSportsHook. cbn [Result.items]. fold query.
  unfold annotate, responseOrEmpty.
  destruct (Query.data query) as [body |]; split.
  - intros Hnil. right. exists body. split; [done |]. by apply fmap_nil_inv in Hnil.
  - intros [Hnone | (body' & [= <-] & Hnil)]; [done |]. by rewrite Hnil.
  - by left.
  - done.
Qed.

End TemplateProperties.

(** ** Numeric ids *)

Section NumericHooks.
Context {IndexerClient : Type}.
Variables (subcategory type : string) (E : Type) (idOf : E -> number).

Let d := numericHook subcategory type E idOf.

Variable useApi : option (Options.t (Params d)) -> Query.t (Entity d).
Variable useFavorites : IndexerClient -> option string -> FavoritesFilter.t -> Favorites.t.
Variable indexerClient : IndexerClient.
Variable walletAddress : option string.
Variable options : option (Options.t (Params d)).

Let result := useSportsHook d useApi useFavorites indexerClient walletAddress options.
Let F := Favorites.favorites (useFavorites indexerClient walletAddress (favoritesFilter d)).



End NumericHooks.

(** X8. The hooks of the repository all work in category [sports], and no
    two of them use the same (category, subcategory, type) triple. *)
Theorem repository_scopes_disjoint :
  Forall (fun d => FAVORITES_CATEGORY d = "sports") repositoryHooks
  ∧ ∀ i j d1 d2,
      repositoryHooks !! i = Some d1 → repositoryHooks !! j = Some d2 →
      favoritesFilter d1 = favoritesFilter d2 → i = j.
Proof.
  split.
  - repeat constructor.
  - intros i j d1 d2 Hi Hj Heq.
    assert (Hnodup : NoDup (favoritesFilter <$> repositoryHooks)).
    { apply (bool_decide_unpack _). vm_compute. exact I. }
    eapply NoDup_lookup; [exact Hnodup | |].
    + rewrite list_lookup_fmap, Hi. reflexivity.
    + rewrite list_lookup_fmap, Hj. simpl. by rewrite Heq.
Qed.

(** ** The further properties on the scenario *)

Lemma toggle_issues_one_call_witness :
  WithFavorite.mk league33 true ∈ Result.items (scenario [favorite1])
  ∧ ∃ call,
      calls_of (Result.setFavorited (scenario [favorite1]) 33%Z false) = [call]
      ∧ match call with
        | AddFavoriteCall request => true = false ∧ AddFavoriteRequest.id request = "33"
        | RemoveFavoriteCall handle =>
            true = true
            ∧ ∃ f, f ∈ [favorite1] ∧ WalletFavoriteData.id f = handle
                ∧ WalletFavoriteData.itemId f = "33"
        end.
Proof.
  assert (Hin : WithFavorite.mk league33 true ∈ Result.items (scenario [favorite1])).
  { rewrite scenario_annotated. left. }
  split; [exact Hin |].
  exact (toggle_issues_one_call BasketballLeagues (mockUseApi [league33; league34])
           (mockUseFavorites [favorite1]) tt mockWalletAddress None
           (WithFavorite.mk league33 true) 33%Z Hin eq_refl).
Defined.

Lemma favorited_iff_unfavorite_removes_witness :
  WithFavorite.mk league34 false ∈ Result.items (scenario [favorite1])
  ∧ ∀ journal,
      Result.setFavorited (scenario [favorite1]) 34%Z false journal
      = (journal, Fulfilled tt).
Proof.
  assert (Hin : WithFavorite.mk league34 false ∈ Result.items (scenario [favorite1])).
  { rewrite scenario_annotated. right. left. }
  split; [exact Hin |].
  destruct (favorited_iff_unfavorite_removes BasketballLeagues
              (mockUseApi [league33; league34]) (mockUseFavorites [favorite1]) tt
              mockWalletAddress None (WithFavorite.mk league34 false) 34%Z Hin eq_refl)
    as [_ [Hnoop _]].
  exact (Hnoop eq_refl).
Defined.

Lemma annotation_depends_on_itemId_set_witness :
  (∀ x, isFavorite [favorite1] x ↔ isFavorite [favorite2; favorite1; favorite2] x)
  ∧ Result.items
      (useBasketballLeagues (mockUseApi [league33; league34])
         (fun ic w filter =>
            withFavorites (mockUseFavorites [favorite1] ic w filter)
              [favorite2; favorite1; favorite2])
         tt mockWalletAddress None)
    = Result.items (scenario [favorite1]).
Proof.
  assert (Hsame : ∀ x, isFavorite [favorite1] x
                       ↔ isFavorite [favorite2; favorite1; favorite2] x).
  { intros x. split.
    - intros (f & Hf & Hx). apply list_elem_of_singleton in Hf. subst f.
      exists favorite2. split; [left | exact Hx].
    - intros (f & Hf & Hx). exists favorite1. split; [left |].
      rewrite <- Hx.
      repeat (apply elem_of_cons in Hf as [-> | Hf]; [reflexivity |]).
      by apply elem_of_nil in Hf. }
  split; [exact Hsame |].
  exact (annotation_depends_on_itemId_set BasketballLeagues (mockUseApi [league33; league34])
           (mockUseFavorites [favorite1]) tt mockWalletAddress None
           [favorite2; favorite1; favorite2] Hsame).
Defined.

Lemma setFavorited_one_call_discipline_witness :
  RemoveFavoriteCall 1 ∈ calls_of (Result.setFavorited (scenario [favorite1]) 33%Z false)
  ∧ (length (calls_of (Result.setFavorited (scenario [favorite1]) 33%Z false)) ≤ 1)%nat
  ∧ false = false.
Proof.
  assert (Hin : RemoveFavoriteCall 1
                ∈ calls_of (Result.setFavorited (scenario [favorite1]) 33%Z false)).
  { rewrite scenario_remove. left. }
  destruct (setFavorited_one_call_discipline BasketballLeagues
              (mockUseApi [league33; league34]) (mockUseFavorites [favorite1]) tt
              mockWalletAddress None 33%Z false)
    as (Hlen & Hkind & _ & _).
  split; [exact Hin |]. split; [exact Hlen |].
  exact (Hkind (RemoveFavoriteCall 1) Hin).
Defined.


Lemma pending_is_not_loading_witness :
  Result.favoritesLoading
    (useBasketballLeagues (mockUseApi [league33; league34]) loadingUseFavorites tt
       mockWalletAddress None) = true
  ∧ Result.isLoading
      (useBasketballLeagues (mockUseApi [league33; league34]) loadingUseFavorites tt
         mockWalletAddress None) = true.
Proof.
  split; [reflexivity |].
  destruct (pending_is_not_loading BasketballLeagues (mockUseApi [league33; league34])
              loadingUseFavorites tt mockWalletAddress None true false)
    as (_ & _ & _ & _ & _ & Hloading).
  exact (Hloading eq_refl).
Defined.

Lemma options_reach_only_entity_query_witness :
  seasonUseApi [league33; league34] None
  = mockUseApi (P := Api.Params) [league33; league34] None
  ∧ useBasketballLeagues (seasonUseApi [league33; league34])
      (mockUseFavorites [favorite1]) tt mockWalletAddress None
    = scenario [favorite1].
Proof.
  split; [reflexivity |].
  destruct (options_reach_only_entity_query BasketballLeagues
              (mockUseApi [league33; league34]) (mockUseFavorites [favorite1]) tt
              mockWalletAddress None (seasonUseApi [league33; league34]) None)
    as [Hsame _].
  exact (Hsame eq_refl).
Defined.



Lemma repository_scopes_disjoint_witness :
  repositoryHooks !! 2%nat = Some BasketballLeagues
  ∧ (∀ j d, repositoryHooks !! j = Some d →
       favoritesFilter BasketballLeagues = favoritesFilter d → 2%nat = j).
Proof.
  split; [reflexivity |].
  destruct repository_scopes_disjoint as [_ Hdistinct].
  intros j d Hj Heq.
  exact (Hdistinct 2%nat j BasketballLeagues d eq_refl Hj Heq).
Defined.
